(** * Shallow embedding of [src/api/pulls/create.rs] (octocrab)

    The builder [CreatePullRequestBuilder], its constructor [new], the three
    configuration methods [body], [draft], [maintainer_can_modify], the
    [#[derive(serde::Serialize)]] impl of the builder (as the [serde_json]
    value it produces), and the terminal operation [send]. *)

From Stdlib Require Import String List Bool Ascii.
Import ListNotations.
Open Scope string_scope.
Set Warnings "-register-all".

(** ** JSON values, as [serde_json::Value] (only the shapes this file needs). *)

Inductive json : Type :=
| JNull
| JBool (b : bool)
| JString (s : string)
| JObject (fields : list (string * json)).

(** Key lookup in a JSON object: the first binding of the key. *)
Fixpoint assoc (k : string) (l : list (string * json)) : option json :=
  match l with
  | [] => None
  | (k', v) :: l' => if String.eqb k k' then Some v else assoc k l'
  end.

Definition lookup_key (k : string) (j : json) : option json :=
  match j with
  | JObject fs => assoc k fs
  | _ => None
  end.

Definition keys (j : json) : list string :=
  match j with
  | JObject fs => map fst fs
  | _ => []
  end.

(** ** The [serde::Serialize] trait, with the std instances that are used. *)

Class Serialize (A : Type) := serialize : A -> json.

#[export] Instance Serialize_String : Serialize string := JString.
#[export] Instance Serialize_bool : Serialize bool := JBool.
(** serde serializes [None] as [serialize_none], i.e. JSON [null]. *)
#[export] Instance Serialize_Option {A} `{Serialize A} : Serialize (option A) :=
  fun o => match o with None => JNull | Some a => serialize a end.

(** ** The [Into] trait, for the [impl Into<String>] arguments. *)

Class Into (A B : Type) := into : A -> B.

#[export] Instance Into_String_String : Into string string := fun s => s.
(** [impl From<char> for String]. *)
#[export] Instance Into_char_String : Into ascii string :=
  fun c => String c EmptyString.

(** ** The client and the handler.

    [Octocrab::post] lives outside this file; the client is modelled by its
    [post] operation on an abstract world (network and server), taking the
    route and the body (already serialized by the client with [serde]) and
    returning the client's [Result]. *)

Section Create.

Context {World PullRequest Error : Type}.

Inductive Result (A : Type) : Type :=
| Ok (a : A)
| Err (e : Error).
Arguments Ok {A} a.
Arguments Err {A} e.

Record Octocrab : Type := {
  post : string -> option json -> World -> Result PullRequest * World
}.

(** [PullRequestHandler<'octo>]: [crab], [owner], [repo]. *)
Record PullRequestHandler : Type := {
  crab : Octocrab;
  owner : string;
  repo : string
}.

(** [CreatePullRequestBuilder<'octo, 'b>]. *)
Record CreatePullRequestBuilder : Type := {
  handler : PullRequestHandler;
  title : string;
  head : string;
  base : string;
  body_field : option string;
  draft_field : option bool;
  maintainer_can_modify_field : option bool
}.

(** [CreatePullRequestBuilder::new]. *)
Definition new {T H B} `{Into T string} `{Into H string} `{Into B string}
    (h : PullRequestHandler) (t : T) (hd : H) (bs : B)
    : CreatePullRequestBuilder :=
  {| handler := h;
     title := into t;
     head := into hd;
     base := into bs;
     body_field := None;
     draft_field := None;
     maintainer_can_modify_field := None |}.

(** [fn body<A: Into<String>>(mut self, body: impl Into<Option<A>>)]:
    [self.body = body.into().map(A::into)]. *)
Definition body {A} `{Into A string} (self : CreatePullRequestBuilder)
    (b : option A) : CreatePullRequestBuilder :=
  {| handler := handler self;
     title := title self;
     head := head self;
     base := base self;
     body_field := option_map into b;
     draft_field := draft_field self;
     maintainer_can_modify_field := maintainer_can_modify_field self |}.

(** [fn draft(mut self, draft: impl Into<Option<bool>>)]. *)
Definition draft (self : CreatePullRequestBuilder) (d : option bool)
    : CreatePullRequestBuilder :=
  {| handler := handler self;
     title := title self;
     head := head self;
     base := base self;
     body_field := body_field self;
     draft_field := d;
     maintainer_can_modify_field := maintainer_can_modify_field self |}.

(** [fn maintainer_can_modify(mut self, ...: impl Into<Option<bool>>)]. *)
Definition maintainer_can_modify (self : CreatePullRequestBuilder)
    (m : option bool) : CreatePullRequestBuilder :=
  {| handler := handler self;
     title := title self;
     head := head self;
     base := base self;
     body_field := body_field self;
     draft_field := draft_field self;
     maintainer_can_modify_field := m |}.

(** [#[derive(serde::Serialize)]]: the fields in declaration order, under
    their Rust names, [handler] skipped ([#[serde(skip)]]); the [Option]
    fields carry no [skip_serializing_if] attribute. *)
#[export] Instance Serialize_CreatePullRequestBuilder
    : Serialize CreatePullRequestBuilder :=
  fun self =>
    JObject
      [("title", serialize (title self));
       ("head", serialize (head self));
       ("base", serialize (base self));
       ("body", serialize (body_field self));
       ("draft", serialize (draft_field self));
       ("maintainer_can_modify",
          serialize (maintainer_can_modify_field self))].

(** The route of [send]:
    [format!("/repos/{owner}/{repo}/pulls", owner = .., repo = ..)]. *)
Definition send_url (self : CreatePullRequestBuilder) : string :=
  "/repos/" ++ owner (handler self) ++ "/" ++ repo (handler self) ++ "/pulls".

(** [send]: [self.handler.crab.post(url, Some(&self)).await]. *)
Definition send (self : CreatePullRequestBuilder) (w : World)
    : Result PullRequest * World :=
  let url := send_url self in
  post (crab (handler self)) url (Some (serialize self)) w.

End Create.

Arguments Ok {Error A} a.
Arguments Err {Error A} e.

(** A chain of configuration calls, applied left to right as in
    [builder.body(..).draft(..).maintainer_can_modify(..)]. *)
Inductive ConfigCall : Type :=
| CallBody (b : option string)
| CallDraft (d : option bool)
| CallMaintainerCanModify (m : option bool).

Definition apply_call {W P E} (self : @CreatePullRequestBuilder W P E)
    (c : ConfigCall) : @CreatePullRequestBuilder W P E :=
  match c with
  | CallBody b => body self b
  | CallDraft d => draft self d
  | CallMaintainerCanModify m => maintainer_can_modify self m
  end.

Definition apply_calls {W P E} (self : @CreatePullRequestBuilder W P E)
    (cs : list ConfigCall) : @CreatePullRequestBuilder W P E :=
  fold_left apply_call cs self.

(** A concrete client for evaluation: every [post] fails with the unit error
    and leaves the world unchanged. *)
Definition unit_crab : @Octocrab unit unit unit :=
  {| post := fun _ _ w => (Err tt, w) |}.

Definition rust_lang_rust : @PullRequestHandler unit unit unit :=
  {| crab := unit_crab; owner := "rust-lang"; repo := "rust" |}.

(** The value a chain of calls leaves in each optional field: the argument
    of the last call to that field's method, if any. *)
Fixpoint first_body (cs : list ConfigCall) : option (option string) :=
  match cs with
  | [] => None
  | CallBody b :: _ => Some b
  | _ :: cs' => first_body cs'
  end.

Fixpoint first_draft (cs : list ConfigCall) : option (option bool) :=
  match cs with
  | [] => None
  | CallDraft d :: _ => Some d
  | _ :: cs' => first_draft cs'
  end.

Fixpoint first_maintainer_can_modify (cs : list ConfigCall)
    : option (option bool) :=
  match cs with
  | [] => None
  | CallMaintainerCanModify m :: _ => Some m
  | _ :: cs' => first_maintainer_can_modify cs'
  end.

Definition last_or {A} (dflt : option A) (found : option (option A))
    : option A :=
  match found with None => dflt | Some v => v end.

(** ** Properties *)

Section Properties.

Context {World PullRequest Error : Type}.

Local Abbreviation Builder := (@CreatePullRequestBuilder World PullRequest Error).
Local Abbreviation Handler := (@PullRequestHandler World PullRequest Error).

Lemma title_apply_calls (cs : list ConfigCall) : forall (b : Builder),
  title (apply_calls b cs) = title b /\ head (apply_calls b cs) = head b /\
  base (apply_calls b cs) = base b /\ handler (apply_calls b cs) = handler b.
Proof.
  induction cs as [|c cs IH]; intros b; simpl.
  - repeat split.
  - destruct (IH (apply_call b c)) as (E1 & E2 & E3 & E4).
    rewrite E1, E2, E3, E4.
    destruct c; repeat split.
Qed.

Lemma serialize_fields (b : Builder) :
  serialize b =
  JObject
    [("title", JString (title b)); ("head", JString (head b));
     ("base", JString (base b));
     ("body", match body_field b with None => JNull | Some s => JString s end);
     ("draft", match draft_field b with None => JNull | Some d => JBool d end);
     ("maintainer_can_modify",
        match maintainer_can_modify_field b with
        | None => JNull | Some m => JBool m end)].
Proof. reflexivity. Qed.

(** C1 (amended). An unset optional field is not omitted: its key is in the
    payload with the value [null]. A builder built with only the three
    required arguments serializes to the six keys [title], [head], [base],
    [body], [draft], [maintainer_can_modify], the last three [null]. *)
Theorem unset_optional_serialized_as_null (b : Builder) :
  (body_field b = None -> lookup_key "body" (serialize b) = Some JNull) /\
  (draft_field b = None -> lookup_key "draft" (serialize b) = Some JNull) /\
  (maintainer_can_modify_field b = None ->
     lookup_key "maintainer_can_modify" (serialize b) = Some JNull) /\
  (forall (h : Handler) (t hd bs : string),
     serialize (new h t hd bs) =
     JObject [("title", JString t); ("head", JString hd); ("base", JString bs);
              ("body", JNull); ("draft", JNull);
              ("maintainer_can_modify", JNull)]).
Proof.
  rewrite serialize_fields.
  repeat split; intros E; try rewrite E; reflexivity.
Qed.

(** C2. The builder [new(h, "test-pr", "master", "branch")] configured with
    [body("testing...")], [draft(true)], [maintainer_can_modify(true)]
    serializes to exactly the object of the [serialize] test. *)
Theorem serialize_test_scenario (h : Handler) :
  serialize
    (maintainer_can_modify
       (draft (body (new h "test-pr" "master" "branch") (Some "testing..."))
          (Some true))
       (Some true)) =
  JObject [("title", JString "test-pr"); ("head", JString "master");
           ("base", JString "branch"); ("body", JString "testing...");
           ("draft", JBool true); ("maintainer_can_modify", JBool true)].
Proof. reflexivity. Qed.

(** C3. With all three optional fields set, the payload has exactly the six
    keys [title], [head], [base], [body], [draft], [maintainer_can_modify],
    with the configured values. *)
Theorem all_set_six_keys (b : Builder) (s : string) (d m : bool)
    (Hb : body_field b = Some s) (Hd : draft_field b = Some d)
    (Hm : maintainer_can_modify_field b = Some m) :
  keys (serialize b) =
    ["title"; "head"; "base"; "body"; "draft"; "maintainer_can_modify"] /\
  lookup_key "title" (serialize b) = Some (JString (title b)) /\
  lookup_key "head" (serialize b) = Some (JString (head b)) /\
  lookup_key "base" (serialize b) = Some (JString (base b)) /\
  lookup_key "body" (serialize b) = Some (JString s) /\
  lookup_key "draft" (serialize b) = Some (JBool d) /\
  lookup_key "maintainer_can_modify" (serialize b) = Some (JBool m).
Proof.
  rewrite serialize_fields, Hb, Hd, Hm.
  repeat split.
Qed.

(** C4. After any chain of configuration calls on [new(h, t, hd, bs)], the
    payload's [title], [head], [base] are the constructor's arguments. *)
Theorem required_fields_fixed {T H B} `{Into T string} `{Into H string}
    `{Into B string} (h : Handler) (t : T) (hd : H) (bs : B)
    (cs : list ConfigCall) :
  lookup_key "title" (serialize (apply_calls (new h t hd bs) cs))
    = Some (JString (into t)) /\
  lookup_key "head" (serialize (apply_calls (new h t hd bs) cs))
    = Some (JString (into hd)) /\
  lookup_key "base" (serialize (apply_calls (new h t hd bs) cs))
    = Some (JString (into bs)).
Proof.
  destruct (title_apply_calls cs (new h t hd bs)) as (E1 & E2 & E3 & _).
  rewrite !serialize_fields; simpl.
  rewrite E1, E2, E3.
  repeat split.
Qed.

(** C5. Calling a configuration method twice is the same as calling it once
    with the second value (last write wins). *)
Theorem config_last_write_wins {A} `{Into A string} (b : Builder) :
  (forall x y : option A, body (body b x) y = body b y) /\
  (forall x y : option bool, draft (draft b x) y = draft b y) /\
  (forall x y : option bool,
     maintainer_can_modify (maintainer_can_modify b x) y =
     maintainer_can_modify b y).
Proof. repeat split. Qed.

(** C6. [send] posts to ["/repos/" ++ owner ++ "/" ++ repo ++ "/pulls"], the
    handler's owner and repo inserted verbatim; for owner ["rust-lang"] and
    repo ["rust"] this is ["/repos/rust-lang/rust/pulls"]. *)
Theorem send_path (b : Builder) :
  (forall w : World,
     send b w =
     post (crab (handler b))
       ("/repos/" ++ owner (handler b) ++ "/" ++ repo (handler b) ++ "/pulls")
       (Some (serialize b)) w) /\
  (forall (c : @Octocrab World PullRequest Error) (t hd bs : string)
          (w : World),
     let b' := new {| crab := c; owner := "rust-lang"; repo := "rust" |}
                 t hd bs in
     send b' w = post c "/repos/rust-lang/rust/pulls" (Some (serialize b')) w).
Proof. split; reflexivity. Qed.

(** C7. Each configuration method clears its field on [None] and sets it to
    the given value on [Some]. *)
Theorem config_sets_and_clears {A} `{Into A string} (b : Builder) :
  body_field (body b (@None A)) = None /\
  (forall a : A, body_field (body b (Some a)) = Some (into a)) /\
  draft_field (draft b None) = None /\
  (forall d, draft_field (draft b (Some d)) = Some d) /\
  maintainer_can_modify_field (maintainer_can_modify b None) = None /\
  (forall m, maintainer_can_modify_field (maintainer_can_modify b (Some m))
               = Some m).
Proof. repeat split. Qed.

(** C8. [send] is one call of the client's [post] on the current world: its
    result (entity or error) and the resulting world are exactly those of
    [post]. *)
Theorem send_pass_through (b : Builder) (w : World) :
  send b w = post (crab (handler b)) (send_url b) (Some (serialize b)) w /\
  (forall (e : Error) (w' : World),
     send b w = (Err e, w') <->
     post (crab (handler b)) (send_url b) (Some (serialize b)) w = (Err e, w')) /\
  (forall (p : PullRequest) (w' : World),
     send b w = (Ok p, w') <->
     post (crab (handler b)) (send_url b) (Some (serialize b)) w = (Ok p, w')).
Proof. repeat split; intros E; exact E. Qed.

(** C9. [new] stores the three arguments converted with [Into<String>] and
    leaves [body], [draft], [maintainer_can_modify] unset. *)
Theorem new_initial_state {T H B} `{Into T string} `{Into H string}
    `{Into B string} (h : Handler) (t : T) (hd : H) (bs : B) :
  handler (new h t hd bs) = h /\
  title (new h t hd bs) = into t /\
  head (new h t hd bs) = into hd /\
  base (new h t hd bs) = into bs /\
  body_field (new h t hd bs) = None /\
  draft_field (new h t hd bs) = None /\
  maintainer_can_modify_field (new h t hd bs) = None.
Proof. repeat split. Qed.

(** C10. The handler is skipped by serialization: the payload's keys are
    among the six field names, and replacing the handler (owner, repo and
    client) leaves the payload unchanged. *)
Theorem handler_not_serialized (b : Builder) :
  incl (keys (serialize b))
    ["title"; "head"; "base"; "body"; "draft"; "maintainer_can_modify"] /\
  (forall h' : Handler,
     serialize {| handler := h'; title := title b; head := head b;
                  base := base b; body_field := body_field b;
                  draft_field := draft_field b;
                  maintainer_can_modify_field := maintainer_can_modify_field b |}
     = serialize b).
Proof.
  split.
  - rewrite serialize_fields; simpl; apply incl_refl.
  - reflexivity.
Qed.

End Properties.

(** ** Witnesses and counterexamples on concrete inputs *)

Definition required_only : @CreatePullRequestBuilder unit unit unit :=
  new rust_lang_rust "test-pr" "master" "branch".

(** C1: the builder with only the required arguments has a [body] key bound
    to [null], and its keys are not just [title], [head], [base]. *)
Lemma unset_optional_omitted_counterexample :
  lookup_key "body" (serialize required_only) = Some JNull /\
  keys (serialize required_only) <> ["title"; "head"; "base"].
Proof. split; [reflexivity | discriminate]. Qed.

Lemma unset_optional_serialized_as_null_witness :
  body_field required_only = None /\
  lookup_key "body" (serialize required_only) = Some JNull.
Proof.
  split; [reflexivity |].
  apply (proj1 (unset_optional_serialized_as_null required_only)).
  reflexivity.
Defined.

Lemma all_set_six_keys_witness :
  keys (serialize (maintainer_can_modify
          (draft (body required_only (Some "testing...")) (Some true))
          (Some true))) =
  ["title"; "head"; "base"; "body"; "draft"; "maintainer_can_modify"].
Proof.
  apply (proj1 (all_set_six_keys
    (maintainer_can_modify
       (draft (body required_only (Some "testing...")) (Some true))
       (Some true))
    "testing..." true true eq_refl eq_refl eq_refl)).
Defined.

(** ** Further properties of the builder and of [send] *)

Lemma string_append_assoc (a b c : string) : (a ++ b) ++ c = a ++ (b ++ c).
Proof. induction a as [|x a IH]; simpl; [reflexivity | now rewrite IH]. Qed.

Section MoreProperties.

Context {World PullRequest Error : Type}.

Local Abbreviation Builder := (@CreatePullRequestBuilder World PullRequest Error).
Local Abbreviation Handler := (@PullRequestHandler World PullRequest Error).

Lemma apply_calls_snoc (b : Builder) (cs : list ConfigCall) (c : ConfigCall) :
  apply_calls b (cs ++ [c]) = apply_call (apply_calls b cs) c.
Proof. unfold apply_calls. now rewrite fold_left_app. Qed.

Lemma first_body_snoc (cs : list ConfigCall) (c : ConfigCall) :
  first_body (rev (cs ++ [c])) =
  match c with CallBody b => Some b | _ => first_body (rev cs) end.
Proof. rewrite rev_app_distr. destruct c; reflexivity. Qed.

Lemma first_draft_snoc (cs : list ConfigCall) (c : ConfigCall) :
  first_draft (rev (cs ++ [c])) =
  match c with CallDraft d => Some d | _ => first_draft (rev cs) end.
Proof. rewrite rev_app_distr. destruct c; reflexivity. Qed.

Lemma first_maintainer_can_modify_snoc (cs : list ConfigCall)
    (c : ConfigCall) :
  first_maintainer_can_modify (rev (cs ++ [c])) =
  match c with
  | CallMaintainerCanModify m => Some m
  | _ => first_maintainer_can_modify (rev cs)
  end.
Proof. rewrite rev_app_distr. destruct c; reflexivity. Qed.

Lemma apply_calls_optional (b : Builder) (cs : list ConfigCall) :
  body_field (apply_calls b cs) = last_or (body_field b) (first_body (rev cs)) /\
  draft_field (apply_calls b cs) = last_or (draft_field b) (first_draft (rev cs)) /\
  maintainer_can_modify_field (apply_calls b cs) =
    last_or (maintainer_can_modify_field b)
      (first_maintainer_can_modify (rev cs)).
Proof.
  induction cs as [|c cs IH] using rev_ind.
  - repeat split.
  - rewrite apply_calls_snoc, first_body_snoc, first_draft_snoc,
      first_maintainer_can_modify_snoc.
    destruct IH as (E1 & E2 & E3).
    destruct c as [o|o|o]; simpl; rewrite ?E1, ?E2, ?E3; repeat split;
      destruct o; reflexivity.
Qed.

(** The configuration methods of different fields commute: the order of
    [body], [draft] and [maintainer_can_modify] in a chain does not matter. *)
Theorem config_methods_commute (b : Builder) (x : option string)
    (d m : option bool) :
  draft (body b x) d = body (draft b d) x /\
  maintainer_can_modify (body b x) m = body (maintainer_can_modify b m) x /\
  maintainer_can_modify (draft b d) m = draft (maintainer_can_modify b m) d.
Proof. repeat split. Qed.

(** For any chain of configuration calls on [new(h, t, hd, bs)], the payload
    is the three required strings followed by, for each optional field, the
    argument of the last call to its method, or [null] when that method was
    never called. *)
Theorem chain_payload (h : Handler) (t hd bs : string)
    (cs : list ConfigCall) :
  serialize (apply_calls (new h t hd bs) cs) =
  JObject
    [("title", JString t); ("head", JString hd); ("base", JString bs);
     ("body", serialize (last_or None (first_body (rev cs))));
     ("draft", serialize (last_or None (first_draft (rev cs))));
     ("maintainer_can_modify",
        serialize (last_or None (first_maintainer_can_modify (rev cs))))].
Proof.
  destruct (title_apply_calls cs (new h t hd bs)) as (E1 & E2 & E3 & _).
  destruct (apply_calls_optional (new h t hd bs) cs) as (F1 & F2 & F3).
  change (serialize (apply_calls (new h t hd bs) cs)) with
    (JObject
      [("title", serialize (title (apply_calls (new h t hd bs) cs)));
       ("head", serialize (head (apply_calls (new h t hd bs) cs)));
       ("base", serialize (base (apply_calls (new h t hd bs) cs)));
       ("body", serialize (body_field (apply_calls (new h t hd bs) cs)));
       ("draft", serialize (draft_field (apply_calls (new h t hd bs) cs)));
       ("maintainer_can_modify",
          serialize (maintainer_can_modify_field
                       (apply_calls (new h t hd bs) cs)))]).
  rewrite E1, E2, E3, F1, F2, F3.
  reflexivity.
Qed.

(** Serialization loses nothing but the handler: two builders have the same
    payload exactly when they agree on all six serialized fields (so an unset
    field and a field set to [""] or [false] give different payloads). *)
Theorem serialize_injective
    (b1 b2 : @CreatePullRequestBuilder World PullRequest Error) :
  serialize b1 = serialize b2 <->
  title b1 = title b2 /\ head b1 = head b2 /\ base b1 = base b2 /\
  body_field b1 = body_field b2 /\ draft_field b1 = draft_field b2 /\
  maintainer_can_modify_field b1 = maintainer_can_modify_field b2.
Proof.
  rewrite !serialize_fields.
  split.
  - intros E. injection E as E1 E2 E3 E4 E5 E6.
    repeat split; try assumption.
    + destruct (body_field b1), (body_field b2); congruence.
    + destruct (draft_field b1), (draft_field b2); congruence.
    + destruct (maintainer_can_modify_field b1),
        (maintainer_can_modify_field b2); congruence.
  - intros (E1 & E2 & E3 & E4 & E5 & E6).
    now rewrite E1, E2, E3, E4, E5, E6.
Qed.

(** Configuration never changes where or through which client a builder is
    sent: after any chain of calls, [send] makes one [post] on the original
    handler's client, to the original route, with the configured payload. *)
Theorem send_after_calls (b : Builder) (cs : list ConfigCall) (w : World) :
  send (apply_calls b cs) w =
  post (crab (handler b)) (send_url b) (Some (serialize (apply_calls b cs))) w.
Proof.
  destruct (title_apply_calls cs b) as (_ & _ & _ & E).
  unfold send, send_url. now rewrite E.
Qed.

(** The route inserts [owner] and [repo] without escaping: a ['/'] moved
    from the end of the owner to the start of the repo gives the same
    route, so handlers with different owner/repo pairs can post to one
    path. *)
Theorem send_url_no_escaping (c : @Octocrab World PullRequest Error)
    (o x r : string) (t hd bs : string) :
  send_url (new {| crab := c; owner := o ++ "/" ++ x; repo := r |} t hd bs) =
  send_url (new {| crab := c; owner := o; repo := x ++ "/" ++ r |} t hd bs).
Proof.
  unfold send_url; simpl.
  rewrite !string_append_assoc. reflexivity.
Qed.

End MoreProperties.
